(** * data_ingestion: the ingestion facade and its observable contract

    A shallow embedding of [data_ingestion/data_ingestion.py]: the three
    functions [create_db_engine], [query_data] and [read_from_web_CSV], the
    Python exception semantics they rely on ([try]/[except] clause order,
    [with] blocks, re-raise of a bound or unbound name) and the log stream
    they write.  The SQLAlchemy and pandas calls are external: they are
    taken as parameters of the facade and may return or raise anything.

    A failure of a call is an error it raises, an instance of Exception.
    KeyboardInterrupt and SystemExit are instances of BaseException only:
    no [except] clause of the module matches them, and they pass through
    [with] blocks and handlers as Python prescribes. *)

From Stdlib Require Import String Ascii List ZArith Bool Arith Lia.
From ExtLib Require Import Structures.Monad Structures.MonadExc.
Import ListNotations.
Import MonadNotation.
Local Open Scope string_scope.
Local Open Scope monad_scope.

(** ** Python exceptions *)

Module Py.

(** The exception classes that the module names or that its callees raise,
    with the base class each one is declared with. *)
Inductive ExcClass : Type :=
| BaseException | KeyboardInterrupt | SystemExit | Exception
| ImportError | ModuleNotFoundError
| NameError | UnboundLocalError
| ValueError | UnicodeError | UnicodeDecodeError | UnicodeEncodeError
| EmptyDataError | ParserError
| OSError | URLError | HTTPError | TimeoutError | FileNotFoundError
| SQLAlchemyError | ArgumentError | StatementError | DBAPIError
| DatabaseError | OperationalError | ProgrammingError.

Scheme Equality for ExcClass.

Definition base (c : ExcClass) : option ExcClass :=
  match c with
  | BaseException => None
  | KeyboardInterrupt | SystemExit | Exception => Some BaseException
  | ImportError | NameError | ValueError | OSError | SQLAlchemyError =>
      Some Exception
  | ModuleNotFoundError => Some ImportError
  | UnboundLocalError => Some NameError
  | UnicodeError | EmptyDataError | ParserError => Some ValueError
  | UnicodeDecodeError | UnicodeEncodeError => Some UnicodeError
  | URLError | TimeoutError | FileNotFoundError => Some OSError
  | HTTPError => Some URLError
  | ArgumentError | StatementError => Some SQLAlchemyError
  | DBAPIError => Some StatementError
  | DatabaseError => Some DBAPIError
  | OperationalError | ProgrammingError => Some DatabaseError
  end.

Fixpoint issubclass_upto (depth : nat) (c d : ExcClass) : bool :=
  if ExcClass_beq c d then true
  else match depth with
       | O => false
       | S depth' =>
           match base c with
           | Some p => issubclass_upto depth' p d
           | None => false
           end
       end.

(** No class above is more than seven steps below [BaseException]. *)
Definition issubclass : ExcClass -> ExcClass -> bool := issubclass_upto 8.

(** An exception object: its class, the text [str(e)] gives, and the
    [__context__] Python attaches when it is raised inside a handler. *)
#[warnings="-register-all"]
Inductive exn : Type :=
| Exn (cls : ExcClass) (msg : string) (context : option exn).

Definition exc_class (e : exn) : ExcClass := let 'Exn c _ _ := e in c.
Definition str (e : exn) : string := let 'Exn _ m _ := e in m.
Definition exc_context (e : exn) : option exn := let 'Exn _ _ x := e in x.

Definition isinstance (e : exn) (c : ExcClass) : bool :=
  issubclass (exc_class e) c.

(** How a call ends. *)
Inductive Result (A : Type) : Type :=
| Returned (a : A)
| Raised (e : exn).
Arguments Returned {A} a.
Arguments Raised {A} e.

End Py.
Import Py.

(** ** pandas tables *)

Module Pandas.

Inductive Cell : Type :=
| CInt (z : Z)
| CText (s : string).

(** A DataFrame: the column labels and the rows in order. *)
Record DataFrame : Type := mkDataFrame {
  columns : list string;
  rows : list (list Cell)
}.

Definition nrows (df : DataFrame) : nat := length (rows df).
Definition ncols (df : DataFrame) : nat := length (columns df).

(** [DataFrame.empty]: true when any axis has length 0. *)
Definition empty (df : DataFrame) : bool :=
  Nat.eqb (nrows df) 0 || Nat.eqb (ncols df) 0.

End Pandas.
Import Pandas.

(** ** The effects of a call: log lines and library calls, in order *)

Inductive Level : Type := INFO | ERROR.

Record Engine : Type := mkEngine { engine_url : string }.
Record Connection : Type := mkConnection {
  conn_engine : Engine;
  conn_id : nat
}.

Inductive Event : Type :=
| Log (lvl : Level) (msg : string)      (* a record of logger 'data_ingestion' *)
| CreateEngine (db_path : string)       (* create_engine(db_path) is called *)
| Connect (eng : Engine)                (* engine.connect() is called *)
| Opened (c : Connection)               (* ... and gave connection c *)
| Closed (c : Connection)               (* c.__exit__ closed c *)
| ReadSqlQuery (sql : string) (c : Connection)
| ReadCsv (src : string).

Definition Trace : Type := list Event.

(** A Python computation: from the trace so far to a result and the trace
    extended with what the computation did.  The trace survives a raise. *)
Definition PyM (A : Type) : Type := Trace -> Result A * Trace.

Definition py_ret {A} (a : A) : PyM A := fun t => (Returned a, t).

Definition py_bind {A B} (m : PyM A) (k : A -> PyM B) : PyM B :=
  fun t =>
    match m t with
    | (Returned a, t') => k a t'
    | (Raised e, t') => (Raised e, t')
    end.

Definition py_raise {A} (e : exn) : PyM A := fun t => (Raised e, t).

(** [try: body except <clauses>]: the handler receives what the body raised.
    An exception raised by the handler itself is not handled again. *)
Definition py_try {A} (body : PyM A) (handler : exn -> PyM A) : PyM A :=
  fun t =>
    match body t with
    | (Returned a, t') => (Returned a, t')
    | (Raised e, t') => handler e t'
    end.

#[global] Instance Monad_PyM : Monad PyM :=
  {| ret := @py_ret; bind := @py_bind |}.

#[global] Instance MonadExc_PyM : MonadExc exn PyM :=
  {| raise := @py_raise; catch := @py_try |}.

Definition emit (ev : Event) : PyM unit :=
  fun t => (Returned tt, (t ++ [ev])%list).

(** An external call with no effect of its own beyond its result. *)
Definition lift {A} (r : Result A) : PyM A := fun t => (r, t).

Definition logger_info (msg : string) : PyM unit := emit (Log INFO msg).
Definition logger_error (msg : string) : PyM unit := emit (Log ERROR msg).

(** [raise e] where [e] is a local name of the function: [binding] is what
    the name is bound to at that point.  Reading an unbound local raises
    UnboundLocalError, with the exception being handled as its context. *)
Definition unbound_local_msg (name : string) : string :=
  "cannot access local variable '" ++ name
    ++ "' where it is not associated with a value".

Definition raise_name {A} (name : string) (binding : option exn)
    (handling : exn) : PyM A :=
  match binding with
  | Some e => raise e
  | None =>
      raise (Exn UnboundLocalError (unbound_local_msg name) (Some handling))
  end.

(** The log lines of a trace, in order. *)
Fixpoint log_lines (t : Trace) : list (Level * string) :=
  match t with
  | [] => []
  | Log lvl msg :: t' => (lvl, msg) :: log_lines t'
  | _ :: t' => log_lines t'
  end.

(** The connections a trace leaves open. *)
Definition Connection_eqb (c d : Connection) : bool :=
  String.eqb (engine_url (conn_engine c)) (engine_url (conn_engine d))
  && Nat.eqb (conn_id c) (conn_id d).

Fixpoint open_connections (t : Trace) (acc : list Connection)
    : list Connection :=
  match t with
  | [] => acc
  | Opened c :: t' => open_connections t' (acc ++ [c])%list
  | Closed c :: t' =>
      open_connections t' (filter (fun d => negb (Connection_eqb c d)) acc)
  | _ :: t' => open_connections t' acc
  end.

(** ** The facade *)

Section Facade.

(** sqlalchemy.create_engine, Engine.connect, pandas.read_sql_query and
    pandas.read_csv. *)
Variable create_engine : string -> Result Engine.
Variable connect : Engine -> Result Connection.
Variable read_sql_query : string -> Connection -> Result DataFrame.
Variable read_csv : string -> Result DataFrame.

(** [with engine.connect() as conn: body].  Connection.__exit__ closes the
    connection and returns None, so what the body raised is raised again. *)
Definition with_connect {A} (engine : Engine) (body : Connection -> PyM A)
    : PyM A :=
  emit (Connect engine) ;;
  conn <- lift (connect engine) ;;
  emit (Opened conn) ;;
  fun t =>
    match body conn t with
    | (Returned a, t') => (emit (Closed conn) ;; ret a) t'
    | (Raised e, t') => (emit (Closed conn) ;; raise e) t'
    end.

Definition create_db_engine (db_path : string) : PyM Engine :=
  catch
    (emit (CreateEngine db_path) ;;
     engine <- lift (create_engine db_path) ;;
     (* Test connection *)
     with_connect engine (fun conn => ret tt) ;;
     logger_info "Database engine created successfully." ;;
     ret engine)
    (fun exc =>
       if isinstance exc ImportError then
         (* except ImportError: the clause binds no name *)
         logger_error
           "SQLAlchemy is required to use this function. Please install it first." ;;
         raise_name "e" None exc
       else if isinstance exc Exception then
         (* except Exception as e *)
         let e := Some exc in
         logger_error ("Failed to create database engine. Error: " ++ str exc) ;;
         raise_name "e" e exc
       else raise exc).

Definition query_data (engine : Engine) (sql_query : string) : PyM DataFrame :=
  catch
    (df <- with_connect engine (fun connection =>
             emit (ReadSqlQuery sql_query connection) ;;
             lift (read_sql_query sql_query connection)) ;;
     (if empty df then
        let msg := "The query returned an empty DataFrame." in
        logger_error msg ;;
        raise (Exn ValueError msg None)
      else ret tt) ;;
     logger_info "Query executed successfully." ;;
     ret df)
    (fun exc =>
       if isinstance exc ValueError then
         (* except ValueError as e *)
         let e := Some exc in
         logger_error ("SQL query failed. Error: " ++ str exc) ;;
         raise_name "e" e exc
       else if isinstance exc Exception then
         (* except Exception as e *)
         let e := Some exc in
         logger_error
           ("An error occurred while querying the database. Error: " ++ str exc) ;;
         raise_name "e" e exc
       else raise exc).

Definition read_from_web_CSV (URL : string) : PyM DataFrame :=
  catch
    (emit (ReadCsv URL) ;;
     df <- lift (read_csv URL) ;;
     logger_info "CSV file read successfully from the web." ;;
     ret df)
    (fun exc =>
       if isinstance exc EmptyDataError then
         (* except pd.errors.EmptyDataError as e *)
         let e := Some exc in
         logger_error
           "The URL does not point to a valid CSV file. Please check the URL and try again." ;;
         raise_name "e" e exc
       else if isinstance exc Exception then
         (* except Exception as e *)
         let e := Some exc in
         logger_error ("Failed to read CSV from the web. Error: " ++ str exc) ;;
         raise_name "e" e exc
       else raise exc).

End Facade.

(** ** The header row of a document, in the words of the specification

    [pandas.read_csv] is outside the repository and is a parameter of the
    facade.  The specification speaks of "the CSV header row" of a
    document: for plain comma-separated text that is the first line,
    split at the commas.  Nothing in the facade computes it; it is only
    what the columns of a returned table are compared with. *)

Module CsvText.

Definition line_feed : ascii := "010"%char.

Fixpoint split (sep : ascii) (s : string) : list string :=
  match s with
  | EmptyString => [EmptyString]
  | String ch rest =>
      if Ascii.eqb ch sep then EmptyString :: split sep rest
      else match split sep rest with
           | w :: ws => String ch w :: ws
           | [] => [String ch EmptyString]
           end
  end.



End CsvText.

(** ** A small world to run the facade in *)

Module Demo.

Definition farm_db : string := "sqlite:///Maji_Ndogo_farm_survey_small.db".
Definition farm_engine : Engine := mkEngine farm_db.
Definition farm_conn : Connection := mkConnection farm_engine 1.

(** A PostgreSQL URL on a machine without psycopg2, a URL that does not
    parse, and SQLite files. *)
Definition create_engine (db_path : string) : Result Engine :=
  if String.prefix "postgresql://" db_path then
    Raised (Exn ModuleNotFoundError "No module named 'psycopg2'" None)
  else if String.prefix "sqlite:///" db_path then Returned (mkEngine db_path)
  else Raised (Exn ArgumentError
                 ("Could not parse SQLAlchemy URL from string '" ++ db_path ++ "'")
                 None).

Definition connect (eng : Engine) : Result Connection :=
  if String.eqb (engine_url eng) farm_db then Returned farm_conn
  else Raised (Exn OperationalError
                 "(sqlite3.OperationalError) unable to open database file" None).

(** A lone surrogate (U+D800 to U+DFFF) in a Python string has no UTF-8
    form.  A query text is a byte string here, and a lone surrogate in it
    is written as the three bytes ED A0..BF xx, which valid UTF-8 never
    has. *)
Fixpoint has_lone_surrogate (s : string) : bool :=
  match s with
  | EmptyString => false
  | String ch rest =>
      (Ascii.eqb ch "237"%char
       && match rest with
          | String ch2 _ => (160 <=? nat_of_ascii ch2)%nat
          | EmptyString => false
          end)
      || has_lone_surrogate rest
  end.

Definition no_rows_query : string := "SELECT * FROM t WHERE 1=0".
Definition fields_query : string := "SELECT Field_ID, Elevation FROM t".
Definition typo_query : string := "SELEC * FROM t".

(** The text [SELECT '\ud800']. *)
Definition surrogate_query : string :=
  "SELECT '" ++ String "237"%char (String "160"%char (String "128"%char "'")).

Definition fields_table : DataFrame :=
  mkDataFrame ["Field_ID"; "Elevation"]
    [[CInt 40734; CInt 786]; [CInt 30629; CInt 674]].

(** A statement with a lone surrogate cannot be encoded for the sqlite3
    driver: the encoding raises UnicodeEncodeError, a ValueError, which is
    no database error and so is wrapped neither by SQLAlchemy nor by
    pandas.  A statement that does not parse gives an OperationalError. *)
Definition read_sql_query (sql : string) (c : Connection) : Result DataFrame :=
  if has_lone_surrogate sql then
    Raised (Exn UnicodeEncodeError
              "'utf-8' codec can't encode character '\ud800' in position 8: surrogates not allowed"
              None)
  else if String.eqb sql no_rows_query then
    Returned (mkDataFrame ["Field_ID"; "Elevation"] [])
  else if String.eqb sql fields_query then Returned fields_table
  else Raised (Exn OperationalError
                 "(sqlite3.OperationalError) near 'SELEC': syntax error" None).

Definition data_url : string := "https://example.com/data.csv".
Definition empty_url : string := "https://example.com/empty.csv".
Definition local_path : string := "data/Weather_station_data.csv".
Definition dup_url : string := "https://example.com/repeated.csv".
Definition page_url : string := "https://example.com/index.html".

Definition data_text : string :=
  "a,b" ++ String CsvText.line_feed "1,2" ++ String CsvText.line_feed "3,4".
Definition dup_text : string := "a,a" ++ String CsvText.line_feed "1,2".
Definition page_text : string :=
  "<html>" ++ String CsvText.line_feed "<body>hello</body>"
    ++ String CsvText.line_feed "</html>".

(** What each source resolves to: the body, and the media type the server
    announces for it. *)
Definition body (src : string) : option string :=
  if String.eqb src data_url then Some data_text
  else if String.eqb src empty_url then Some ""
  else if String.eqb src local_path then
    Some ("Weather_station_ID,Message" ++ String CsvText.line_feed "22,rain")
  else if String.eqb src dup_url then Some dup_text
  else if String.eqb src page_url then Some page_text
  else None.

Definition content_type (src : string) : option string :=
  if String.eqb src page_url then Some "text/html"
  else if String.eqb src local_path then None
  else match body src with
       | Some _ => Some "text/csv"
       | None => None
       end.

(** What [pandas.read_csv] gives for these sources.  It does not look at
    the media type.  Of an empty body it says there are no columns to
    parse; a repeated column label is renamed with a numeric suffix; the
    lines of an HTML page without commas are records of one field each; a
    source that is not found is an HTTP error. *)
Definition read_csv (src : string) : Result DataFrame :=
  if String.eqb src data_url then
    Returned (mkDataFrame ["a"; "b"] [[CInt 1; CInt 2]; [CInt 3; CInt 4]])
  else if String.eqb src empty_url then
    Raised (Exn EmptyDataError "No columns to parse from file" None)
  else if String.eqb src local_path then
    Returned (mkDataFrame ["Weather_station_ID"; "Message"]
                [[CInt 22; CText "rain"]])
  else if String.eqb src dup_url then
    Returned (mkDataFrame ["a"; "a.1"] [[CInt 1; CInt 2]])
  else if String.eqb src page_url then
    Returned (mkDataFrame ["<html>"]
                [[CText "<body>hello</body>"]; [CText "</html>"]])
  else Raised (Exn HTTPError "HTTP Error 404: Not Found" None).

End Demo.

(** ** Vocabulary of the statements *)

Section Outcomes.

Variable create_engine : string -> Result Engine.
Variable connect : Engine -> Result Connection.
Variable read_sql_query : string -> Connection -> Result DataFrame.

(** What engine construction or the probe connection raised, if either
    failed. *)
Definition creation_failure (db_path : string) : option exn :=
  match create_engine db_path with
  | Raised e => Some e
  | Returned eng =>
      match connect eng with
      | Raised e => Some e
      | Returned _ => None
      end
  end.

(** What opening the connection or running the query raised, if either
    failed. *)
Definition execution_failure (eng : Engine) (sql : string) : option exn :=
  match connect eng with
  | Raised e => Some e
  | Returned c =>
      match read_sql_query sql c with
      | Raised e => Some e
      | Returned _ => None
      end
  end.

(** The query ran to completion and its table is empty. *)
Definition yields_empty (eng : Engine) (sql : string) : bool :=
  match connect eng with
  | Raised _ => false
  | Returned c =>
      match read_sql_query sql c with
      | Raised _ => false
      | Returned df => empty df
      end
  end.

End Outcomes.

(** The levels of the log lines a call writes, by how it ends: one INFO
    line when it returns; when it raises an error (an instance of
    Exception) one ERROR line, or two when the error is the one
    [query_data] builds for an empty result; none when what it raises is
    no Exception. *)
Definition expected_levels {A} (empty_result : bool) (r : Result A)
    : list Level :=
  match r with
  | Returned _ => [INFO]
  | Raised e =>
      if isinstance e Exception then
        if empty_result then [ERROR; ERROR] else [ERROR]
      else []
  end.

Definition is_log (ev : Event) : bool :=
  match ev with Log _ _ => true | _ => false end.

(** ** Library calls in a trace, and the two functions in sequence *)

Definition is_create_engine (ev : Event) : bool :=
  match ev with CreateEngine _ => true | _ => false end.
Definition is_connect (ev : Event) : bool :=
  match ev with Connect _ => true | _ => false end.
Definition is_read_sql_query (ev : Event) : bool :=
  match ev with ReadSqlQuery _ _ => true | _ => false end.
Definition is_read_csv (ev : Event) : bool :=
  match ev with ReadCsv _ => true | _ => false end.

(** How many events of a kind a trace has. *)
Definition count_events (kind : Event -> bool) (t : Trace) : nat :=
  length (filter kind t).

Section Usage.

Variable create_engine : string -> Result Engine.
Variable read_sql_query : string -> Connection -> Result DataFrame.

(** The database may answer the probe and the later query differently. *)
Variable connect_probe : Engine -> Result Connection.
Variable connect_query : Engine -> Result Connection.

(** The use the docstrings show:
    [engine = create_db_engine(db_path)] and then
    [data_frame = query_data(engine, sql_query)]. *)
Definition engine_then_query (db_path sql_query : string) : PyM DataFrame :=
  engine <- create_db_engine create_engine connect_probe db_path ;;
  query_data connect_query read_sql_query engine sql_query.

End Usage.

(** ** Edge cases to run the facade on *)

Module Edge.

(** The user interrupts the call while the library is at work. *)
Definition interrupt : exn := Exn KeyboardInterrupt "" None.

Definition create_engine (db_path : string) : Result Engine :=
  if String.eqb db_path "sqlite:///slow.db" then Raised interrupt
  else Demo.create_engine db_path.

Definition connect (eng : Engine) : Result Connection :=
  if String.eqb (engine_url eng) "sqlite:///busy.db" then Raised interrupt
  else Returned (mkConnection eng 7).

(** A database that answers the probe and is gone afterwards. *)
Definition connect_gone (eng : Engine) : Result Connection :=
  Raised (Exn OperationalError
            "(sqlite3.OperationalError) unable to open database file" None).

Definition no_columns_query : string := "SELECT FROM t".
Definition no_columns_table : DataFrame := mkDataFrame [] [[]; []].
Definition header_only_table : DataFrame := mkDataFrame ["a"; "b"] [].

Definition read_sql_query (sql : string) (c : Connection) : Result DataFrame :=
  if String.eqb sql no_columns_query then Returned no_columns_table
  else if String.eqb sql "SELECT a, b FROM t WHERE 1=0" then
    Returned header_only_table
  else if String.eqb sql "SELECT pg_sleep(3600)" then Raised interrupt
  else Demo.read_sql_query sql c.

Definition header_only_url : string := "https://example.com/header_only.csv".
Definition slow_url : string := "https://example.com/huge.csv".

(** A document with a header row and no records, which pandas reads as a
    table without rows; a download the user interrupts. *)
Definition read_csv (src : string) : Result DataFrame :=
  if String.eqb src header_only_url then Returned header_only_table
  else if String.eqb src slow_url then Raised interrupt
  else Demo.read_csv src.

End Edge.

(** * Properties *)

(** ** Traces *)

Lemma log_lines_app (t u : Trace) :
  log_lines (t ++ u)%list = (log_lines t ++ log_lines u)%list.
Proof.
  induction t as [|ev t IH]; [reflexivity|].
  destruct ev; cbn [app log_lines]; rewrite IH; reflexivity.
Qed.

(** Unfolds a facade function down to the case analysis on what the
    library calls gave and on the class tests of the [except] clauses. *)
Ltac py_unfold :=
  cbv beta iota zeta delta
    [create_db_engine query_data read_from_web_CSV with_connect raise_name
     logger_info logger_error emit lift
     catch raise bind ret MonadExc_PyM Monad_PyM
     py_try py_bind py_ret py_raise].

Ltac py_outcome := unfold creation_failure, execution_failure, yields_empty.

Ltac py_trace :=
  rewrite <- ?app_assoc; cbn [app fst snd];
  rewrite ?log_lines_app; cbn [log_lines app].

Section FacadeProperties.

Variable create_engine : string -> Result Engine.
Variable connect : Engine -> Result Connection.
Variable read_sql_query : string -> Connection -> Result DataFrame.
Variable read_csv : string -> Result DataFrame.

Local Abbreviation create_db_engine := (create_db_engine create_engine connect).
Local Abbreviation query_data := (query_data connect read_sql_query).
Local Abbreviation read_from_web_CSV := (read_from_web_CSV read_csv).
Local Abbreviation creation_failure := (creation_failure create_engine connect).
Local Abbreviation execution_failure := (execution_failure connect read_sql_query).
Local Abbreviation yields_empty := (yields_empty connect read_sql_query).

(** *** create_db_engine *)

(** A call that returns went through construction and one probe. *)
Lemma create_db_engine_returned (db_path : string) (t : Trace) (eng : Engine) :
  fst (create_db_engine db_path t) = Returned eng ->
  create_engine db_path = Returned eng /\
  exists c, connect eng = Returned c /\
    snd (create_db_engine db_path t) =
      (t ++ [CreateEngine db_path; Connect eng; Opened c; Closed c;
             Log INFO "Database engine created successfully."])%list.
Proof.
  py_unfold.
  destruct (create_engine db_path) as [eng'|e0].
  - destruct (connect eng') as [c|e1] eqn:Hc.
    + py_trace. intros [= ->]. split; [reflexivity|].
      exists c. split; [assumption | reflexivity].
    + destruct (isinstance e1 ImportError), (isinstance e1 Exception);
        cbn; discriminate.
  - destruct (isinstance e0 ImportError), (isinstance e0 Exception);
      cbn; discriminate.
Qed.

(** A failure that is an error but not an ImportError is logged by the
    second clause and raised again. *)
Lemma create_db_engine_raised (db_path : string) (t : Trace) (e : exn) :
  creation_failure db_path = Some e ->
  isinstance e Exception = true ->
  isinstance e ImportError = false ->
  fst (create_db_engine db_path t) = Raised e /\
  log_lines (snd (create_db_engine db_path t)) =
    (log_lines t
       ++ [(ERROR, ("Failed to create database engine. Error: " ++ str e)%string)])%list.
Proof.
  py_outcome. py_unfold. intros Hf He Hi.
  destruct (create_engine db_path) as [eng|e0].
  - destruct (connect eng) as [c|e1]; [discriminate|].
    injection Hf as ->. rewrite Hi, He. py_trace. split; reflexivity.
  - injection Hf as ->. rewrite Hi, He. py_trace. split; reflexivity.
Qed.

(** The first clause: an ImportError is logged, and the [raise e] that
    follows reads a name the clause did not bind. *)
Lemma create_db_engine_ImportError (db_path : string) (t : Trace) (e : exn) :
  creation_failure db_path = Some e ->
  isinstance e ImportError = true ->
  fst (create_db_engine db_path t) =
    Raised (Exn UnboundLocalError (unbound_local_msg "e") (Some e)) /\
  log_lines (snd (create_db_engine db_path t)) =
    (log_lines t
       ++ [(ERROR, "SQLAlchemy is required to use this function. Please install it first.")])%list.
Proof.
  py_outcome. py_unfold. intros Hf Hi.
  destruct (create_engine db_path) as [eng|e0].
  - destruct (connect eng) as [c|e1]; [discriminate|].
    injection Hf as ->. rewrite Hi. py_trace. split; reflexivity.
  - injection Hf as ->. rewrite Hi. py_trace. split; reflexivity.
Qed.

(** *** query_data *)

(** The four ways a call of [query_data] goes when nothing but errors is
    raised: the trace it leaves and its result. *)
Lemma query_data_empty (eng : Engine) (sql : string) (t : Trace)
    (c : Connection) (df : DataFrame) :
  connect eng = Returned c ->
  read_sql_query sql c = Returned df ->
  empty df = true ->
  query_data eng sql t =
    (Raised (Exn ValueError "The query returned an empty DataFrame." None),
     (t ++ [Connect eng; Opened c; ReadSqlQuery sql c; Closed c;
            Log ERROR "The query returned an empty DataFrame.";
            Log ERROR
              "SQL query failed. Error: The query returned an empty DataFrame."])%list).
Proof.
  intros Hc Hq He. py_unfold. rewrite Hc, Hq, He.
  change (isinstance (Exn ValueError _ None) ValueError) with true.
  py_trace. reflexivity.
Qed.

Lemma query_data_returned (eng : Engine) (sql : string) (t : Trace)
    (df : DataFrame) :
  fst (query_data eng sql t) = Returned df ->
  exists c, connect eng = Returned c /\
    read_sql_query sql c = Returned df /\
    empty df = false /\
    snd (query_data eng sql t) =
      (t ++ [Connect eng; Opened c; ReadSqlQuery sql c; Closed c;
             Log INFO "Query executed successfully."])%list.
Proof.
  py_unfold.
  destruct (connect eng) as [c|e0].
  - destruct (read_sql_query sql c) as [df'|e1] eqn:Hq.
    + destruct (empty df') eqn:He.
      * change (isinstance (Exn ValueError _ None) ValueError) with true.
        cbn. discriminate.
      * py_trace. intros [= ->]. exists c. repeat split; assumption.
    + destruct (isinstance e1 ValueError), (isinstance e1 Exception);
        cbn; discriminate.
  - destruct (isinstance e0 ValueError), (isinstance e0 Exception);
      cbn; discriminate.
Qed.

Lemma query_data_raised_ValueError (eng : Engine) (sql : string) (t : Trace)
    (e : exn) :
  execution_failure eng sql = Some e ->
  isinstance e ValueError = true ->
  fst (query_data eng sql t) = Raised e /\
  log_lines (snd (query_data eng sql t)) =
    (log_lines t ++ [(ERROR, ("SQL query failed. Error: " ++ str e)%string)])%list.
Proof.
  py_outcome. py_unfold. intros Hf Hv.
  destruct (connect eng) as [c|e0].
  - destruct (read_sql_query sql c) as [df|e1]; [discriminate|].
    injection Hf as ->. rewrite Hv. py_trace. split; reflexivity.
  - injection Hf as ->. rewrite Hv. py_trace. split; reflexivity.
Qed.

Lemma query_data_raised_other (eng : Engine) (sql : string) (t : Trace)
    (e : exn) :
  execution_failure eng sql = Some e ->
  isinstance e Exception = true ->
  isinstance e ValueError = false ->
  fst (query_data eng sql t) = Raised e /\
  log_lines (snd (query_data eng sql t)) =
    (log_lines t
       ++ [(ERROR,
            ("An error occurred while querying the database. Error: "
               ++ str e)%string)])%list.
Proof.
  py_outcome. py_unfold. intros Hf He Hv.
  destruct (connect eng) as [c|e0].
  - destruct (read_sql_query sql c) as [df|e1]; [discriminate|].
    injection Hf as ->. rewrite Hv, He. py_trace. split; reflexivity.
  - injection Hf as ->. rewrite Hv, He. py_trace. split; reflexivity.
Qed.

(** Whatever happens, the events after the connection is closed are log
    lines only, and a connection that was not opened is not closed. *)
Lemma query_data_trace (eng : Engine) (sql : string) (t : Trace) :
  exists logs, forallb is_log logs = true /\
    snd (query_data eng sql t) =
      match connect eng with
      | Returned c =>
          (t ++ [Connect eng; Opened c; ReadSqlQuery sql c; Closed c]
             ++ logs)%list
      | Raised _ => (t ++ [Connect eng] ++ logs)%list
      end.
Proof.
  py_unfold.
  destruct (connect eng) as [c|e0].
  - destruct (read_sql_query sql c) as [df|e1].
    + destruct (empty df);
        [change (isinstance (Exn ValueError _ None) ValueError) with true|];
        py_trace; eexists; (split; [|reflexivity]); reflexivity.
    + destruct (isinstance e1 ValueError), (isinstance e1 Exception);
        py_trace; eexists; (split; [|reflexivity]); reflexivity.
  - destruct (isinstance e0 ValueError), (isinstance e0 Exception);
      py_trace; eexists; (split; [|reflexivity]); reflexivity.
Qed.

Lemma query_data_ok (eng : Engine) (sql : string) (t : Trace)
    (c : Connection) (df : DataFrame) :
  connect eng = Returned c ->
  read_sql_query sql c = Returned df ->
  empty df = false ->
  query_data eng sql t =
    (Returned df,
     (t ++ [Connect eng; Opened c; ReadSqlQuery sql c; Closed c;
            Log INFO "Query executed successfully."])%list).
Proof.
  intros Hc Hq He. py_unfold. rewrite Hc, Hq, He. py_trace. reflexivity.
Qed.

Lemma create_db_engine_ok (db_path : string) (t : Trace) (eng : Engine)
    (c : Connection) :
  create_engine db_path = Returned eng ->
  connect eng = Returned c ->
  create_db_engine db_path t =
    (Returned eng,
     (t ++ [CreateEngine db_path; Connect eng; Opened c; Closed c;
            Log INFO "Database engine created successfully."])%list).
Proof.
  intros He Hc. py_unfold. rewrite He, Hc. py_trace. reflexivity.
Qed.

(** *** read_from_web_CSV *)

Lemma read_from_web_CSV_ok (URL : string) (t : Trace) (df : DataFrame) :
  read_csv URL = Returned df ->
  read_from_web_CSV URL t =
    (Returned df,
     (t ++ [ReadCsv URL; Log INFO "CSV file read successfully from the web."])%list).
Proof. intros H. py_unfold. rewrite H. py_trace. reflexivity. Qed.

Lemma read_from_web_CSV_EmptyDataError (URL : string) (t : Trace) (e : exn) :
  read_csv URL = Raised e ->
  isinstance e EmptyDataError = true ->
  read_from_web_CSV URL t =
    (Raised e,
     (t ++ [ReadCsv URL;
            Log ERROR
              "The URL does not point to a valid CSV file. Please check the URL and try again."])%list).
Proof. intros H Hi. py_unfold. rewrite H, Hi. py_trace. reflexivity. Qed.

Lemma read_from_web_CSV_other (URL : string) (t : Trace) (e : exn) :
  read_csv URL = Raised e ->
  isinstance e EmptyDataError = false ->
  isinstance e Exception = true ->
  read_from_web_CSV URL t =
    (Raised e,
     (t ++ [ReadCsv URL;
            Log ERROR
              ("Failed to read CSV from the web. Error: " ++ str e)%string])%list).
Proof. intros H Hi He. py_unfold. rewrite H, Hi, He. py_trace. reflexivity. Qed.

(** *** The two lines of an empty result *)

Lemma query_data_logged_twice (eng : Engine) (sql : string) :
  yields_empty eng sql = true ->
  log_lines (snd (query_data eng sql [])) =
    [(ERROR, "The query returned an empty DataFrame.");
     (ERROR, "SQL query failed. Error: The query returned an empty DataFrame.")].
Proof.
  py_outcome.
  destruct (connect eng) as [c|e0] eqn:Hc; [|discriminate].
  destruct (read_sql_query sql c) as [df|e1] eqn:Hq; [|discriminate].
  intros He. rewrite (query_data_empty eng sql [] c df Hc Hq He).
  reflexivity.
Qed.

(** *** Connections *)

Lemma Connection_eqb_refl (c : Connection) : Connection_eqb c c = true.
Proof.
  unfold Connection_eqb. rewrite String.eqb_refl, Nat.eqb_refl. reflexivity.
Qed.

Lemma open_connections_logs (logs : Trace) (acc : list Connection) :
  forallb is_log logs = true -> open_connections logs acc = acc.
Proof.
  induction logs as [|ev logs IH]; [reflexivity|].
  destruct ev; cbn [forallb is_log andb]; try discriminate.
  intros H. cbn [open_connections]. apply IH, H.
Qed.

Lemma query_data_none_left_open (eng : Engine) (sql : string) :
  open_connections (snd (query_data eng sql [])) [] = [].
Proof.
  destruct (query_data_trace eng sql []) as (logs & Hlogs & ->).
  destruct (connect eng) as [c|e0].
  - cbn [app open_connections filter]. rewrite Connection_eqb_refl.
    cbn [negb]. apply open_connections_logs, Hlogs.
  - cbn [app open_connections]. apply open_connections_logs, Hlogs.
Qed.

(** ** The contract, statement by statement *)

(** C1. A query that runs to completion and yields zero rows does not
    return: [query_data] raises the ValueError it builds for an empty table.
    Hence every table [query_data] returns has at least one row. *)
Theorem query_data_zero_rows_raises (eng : Engine) (sql : string) (t : Trace) :
  (forall c df,
     connect eng = Returned c ->
     read_sql_query sql c = Returned df ->
     nrows df = 0 ->
     fst (query_data eng sql t) =
       Raised (Exn ValueError "The query returned an empty DataFrame." None))
  /\
  (forall df, fst (query_data eng sql t) = Returned df -> 1 <= nrows df).
Proof.
  split.
  - intros c df Hc Hq Hn.
    rewrite (query_data_empty eng sql t c df Hc Hq); [reflexivity|].
    unfold empty. rewrite Hn. reflexivity.
  - intros df Hr.
    destruct (query_data_returned eng sql t df Hr) as (c & _ & _ & He & _).
    unfold empty in He. apply orb_false_elim in He as [Hn _].
    apply Nat.eqb_neq in Hn. lia.
Qed.

(** C3, as amended.  When opening the connection or running the query
    raises an error that is not a ValueError, [query_data] logs one
    "An error occurred while querying the database" line and raises that
    same error.  When what was raised is a ValueError, the first clause
    takes it, the clause that also takes the zero-rows error: one
    "SQL query failed" line, and the same error raised again. *)
Theorem query_data_execution_errors (eng : Engine) (sql : string) (t : Trace)
    (e : exn) :
  execution_failure eng sql = Some e ->
  isinstance e Exception = true ->
  fst (query_data eng sql t) = Raised e /\
  log_lines (snd (query_data eng sql t)) =
    (log_lines t
       ++ [(ERROR,
            if isinstance e ValueError
            then ("SQL query failed. Error: " ++ str e)%string
            else ("An error occurred while querying the database. Error: "
                    ++ str e)%string)])%list.
Proof.
  intros Hf He. destruct (isinstance e ValueError) eqn:Hv.
  - apply query_data_raised_ValueError; assumption.
  - apply query_data_raised_other; assumption.
Qed.

(** C5, as amended.  What [read_from_web_CSV] does with a source is decided
    by what the reader does with it and by nothing else.  When the reader
    raises EmptyDataError, which is what it raises for a body with nothing
    to parse, the call logs the line that asks to check the URL and raises
    that error; when the reader raises any other error, the call logs
    "Failed to read CSV from the web" with the error text and raises that
    error.  The line that asks to check the URL is written in no other
    case, and a source the reader makes a table of is returned, whatever
    its content was. *)
Theorem read_from_web_CSV_errors (URL : string) (t : Trace) :
  (forall e,
     read_csv URL = Raised e ->
     isinstance e Exception = true ->
     read_from_web_CSV URL t =
       (Raised e,
        (t ++ [ReadCsv URL;
               Log ERROR
                 (if isinstance e EmptyDataError
                  then "The URL does not point to a valid CSV file. Please check the URL and try again."
                  else ("Failed to read CSV from the web. Error: " ++ str e)%string)])%list))
  /\
  (In (Log ERROR
         "The URL does not point to a valid CSV file. Please check the URL and try again.")
      (snd (read_from_web_CSV URL [])) ->
   exists e, read_csv URL = Raised e /\ isinstance e EmptyDataError = true)
  /\
  (forall df,
     read_csv URL = Returned df ->
     read_from_web_CSV URL t =
       (Returned df,
        (t ++ [ReadCsv URL;
               Log INFO "CSV file read successfully from the web."])%list)).
Proof.
  split; [|split].
  - intros e H He. destruct (isinstance e EmptyDataError) eqn:Hi.
    + apply read_from_web_CSV_EmptyDataError; assumption.
    + apply read_from_web_CSV_other; assumption.
  - py_unfold.
    destruct (read_csv URL) as [df|e0].
    + cbn. intros [H|[H|[]]]; discriminate H.
    + destruct (isinstance e0 EmptyDataError) eqn:Hi.
      * intros _. exists e0. split; [reflexivity | exact Hi].
      * destruct (isinstance e0 Exception); cbn;
          [intros [H|[H|[]]] | intros [H|[]]]; discriminate H.
  - intros df. apply read_from_web_CSV_ok.
Qed.

(** C7. When construction and the probe succeed, [create_db_engine]
    returns the engine after exactly: the construction, one connection
    opened and closed, one INFO line; and a call that returns did just
    that.  When construction or the probe raises an error that is not an
    ImportError, the call logs it in one ERROR line and raises it. *)
Theorem create_db_engine_probes_then_returns (db_path : string) (t : Trace) :
  (forall eng c,
     create_engine db_path = Returned eng ->
     connect eng = Returned c ->
     create_db_engine db_path t =
       (Returned eng,
        (t ++ [CreateEngine db_path; Connect eng; Opened c; Closed c;
               Log INFO "Database engine created successfully."])%list))
  /\
  (forall eng,
     fst (create_db_engine db_path t) = Returned eng ->
     create_engine db_path = Returned eng /\
     exists c, connect eng = Returned c /\
       snd (create_db_engine db_path t) =
         (t ++ [CreateEngine db_path; Connect eng; Opened c; Closed c;
                Log INFO "Database engine created successfully."])%list)
  /\
  (forall e,
     creation_failure db_path = Some e ->
     isinstance e Exception = true ->
     isinstance e ImportError = false ->
     fst (create_db_engine db_path t) = Raised e /\
     log_lines (snd (create_db_engine db_path t)) =
       (log_lines t
          ++ [(ERROR,
               ("Failed to create database engine. Error: " ++ str e)%string)])%list).
Proof.
  split; [|split].
  - intros eng c. apply create_db_engine_ok.
  - intros eng. apply create_db_engine_returned.
  - intros e. apply create_db_engine_raised.
Qed.

(** C8. In every call of [query_data] the connection that was opened is
    closed before anything is logged and before the call returns or
    raises; when no connection could be opened there is none to close.  No
    call leaves a connection open.  On a query that yields an empty table
    the connection is closed first, and only then is the ValueError logged
    and raised. *)
Theorem query_data_releases_connection (eng : Engine) (sql : string)
    (t : Trace) :
  (exists logs, forallb is_log logs = true /\
     snd (query_data eng sql t) =
       match connect eng with
       | Returned c =>
           (t ++ [Connect eng; Opened c; ReadSqlQuery sql c; Closed c]
              ++ logs)%list
       | Raised _ => (t ++ [Connect eng] ++ logs)%list
       end)
  /\ open_connections (snd (query_data eng sql [])) [] = []
  /\
  (forall c df,
     connect eng = Returned c ->
     read_sql_query sql c = Returned df ->
     empty df = true ->
     query_data eng sql t =
       (Raised (Exn ValueError "The query returned an empty DataFrame." None),
        (t ++ [Connect eng; Opened c; ReadSqlQuery sql c; Closed c;
               Log ERROR "The query returned an empty DataFrame.";
               Log ERROR
                 "SQL query failed. Error: The query returned an empty DataFrame."])%list)).
Proof.
  split; [|split].
  - apply query_data_trace.
  - apply query_data_none_left_open.
  - intros c df. apply query_data_empty.
Qed.

(** C9, on the path where the code departs from it.  When construction or
    the probe raises an ImportError, what [create_db_engine] raises is not
    that error: it is an UnboundLocalError that has the ImportError as its
    context. *)
Theorem create_db_engine_replaces_ImportError (db_path : string) (t : Trace)
    (e : exn) :
  creation_failure db_path = Some e ->
  isinstance e ImportError = true ->
  exists e',
    fst (create_db_engine db_path t) = Raised e' /\
    e' <> e /\
    exc_class e' = UnboundLocalError /\
    exc_context e' = Some e.
Proof.
  intros Hf Hi.
  destruct (create_db_engine_ImportError db_path t e Hf Hi) as [Hr _].
  eexists. split; [exact Hr|]. split; [|split; reflexivity].
  intros Heq. rewrite <- Heq in Hi. discriminate Hi.
Qed.

(** C10. [read_from_web_CSV] looks at its argument nowhere: whatever the
    reader accepts is returned as the reader parsed it, and two arguments
    the reader treats alike are treated alike. *)
Theorem read_from_web_CSV_any_source (src : string) (t : Trace) :
  (forall df,
     read_csv src = Returned df ->
     read_from_web_CSV src t =
       (Returned df,
        (t ++ [ReadCsv src;
               Log INFO "CSV file read successfully from the web."])%list))
  /\
  (forall src',
     read_csv src' = read_csv src ->
     fst (read_from_web_CSV src' t) = fst (read_from_web_CSV src t) /\
     log_lines (snd (read_from_web_CSV src' t)) =
       log_lines (snd (read_from_web_CSV src t))).
Proof.
  split.
  - intros df. apply read_from_web_CSV_ok.
  - intros src' H. py_unfold. rewrite H.
    destruct (read_csv src) as [df|e0].
    + py_trace. split; reflexivity.
    + destruct (isinstance e0 EmptyDataError), (isinstance e0 Exception);
        py_trace; split; reflexivity.
Qed.

End FacadeProperties.

(** ** The code on the inputs where it departs from the contract *)

(** C2. A PostgreSQL URL on a machine without the driver: [create_engine]
    raises ModuleNotFoundError, an ImportError.  [create_db_engine] logs the
    line of its first clause and then raises UnboundLocalError, not the
    ImportError. *)
Theorem create_db_engine_missing_driver :
  Demo.create_engine "postgresql://user@host/farm" =
    Raised (Exn ModuleNotFoundError "No module named 'psycopg2'" None) /\
  create_db_engine Demo.create_engine Demo.connect
      "postgresql://user@host/farm" [] =
    (Raised
       (Exn UnboundLocalError
          "cannot access local variable 'e' where it is not associated with a value"
          (Some (Exn ModuleNotFoundError "No module named 'psycopg2'" None))),
     [CreateEngine "postgresql://user@host/farm";
      Log ERROR
        "SQLAlchemy is required to use this function. Please install it first."]) /\
  isinstance
    (Exn UnboundLocalError
       "cannot access local variable 'e' where it is not associated with a value"
       (Some (Exn ModuleNotFoundError "No module named 'psycopg2'" None)))
    ImportError = false.
Proof. repeat split; reflexivity. Qed.

(** Against C3 as stated.  The query text has a lone surrogate; encoding
    it for the driver raises UnicodeEncodeError, a ValueError, while the
    query is being executed.  This is not the zero-rows case, yet
    [query_data] handles it in its ValueError clause: the line logged is
    "SQL query failed", not "An error occurred while querying the
    database", and the error raised is a ValueError as the zero-rows error
    is. *)
Lemma query_data_driver_ValueError :
  execution_failure Demo.connect Demo.read_sql_query
      Demo.farm_engine Demo.surrogate_query =
    Some (Exn UnicodeEncodeError
            "'utf-8' codec can't encode character '\ud800' in position 8: surrogates not allowed"
            None) /\
  yields_empty Demo.connect Demo.read_sql_query
      Demo.farm_engine Demo.surrogate_query = false /\
  fst (query_data Demo.connect Demo.read_sql_query
         Demo.farm_engine Demo.surrogate_query []) =
    Raised (Exn UnicodeEncodeError
              "'utf-8' codec can't encode character '\ud800' in position 8: surrogates not allowed"
              None) /\
  isinstance
    (Exn UnicodeEncodeError
       "'utf-8' codec can't encode character '\ud800' in position 8: surrogates not allowed"
       None)
    ValueError = true /\
  log_lines (snd (query_data Demo.connect Demo.read_sql_query
                    Demo.farm_engine Demo.surrogate_query [])) =
    [(ERROR,
      "SQL query failed. Error: 'utf-8' codec can't encode character '\ud800' in position 8: surrogates not allowed")] /\
  log_lines (snd (query_data Demo.connect Demo.read_sql_query
                    Demo.farm_engine Demo.surrogate_query [])) <>
    [(ERROR,
      "An error occurred while querying the database. Error: 'utf-8' codec can't encode character '\ud800' in position 8: surrogates not allowed")].
Proof. repeat split; try reflexivity. cbv. discriminate. Qed.

(** Against C4 as stated.  A query that yields no rows: [query_data] writes
    two ERROR lines in the one call.  A download the user interrupts:
    [read_from_web_CSV] writes no line at all. *)
Lemma calls_with_two_lines_and_with_none :
  log_lines (snd (query_data Demo.connect Demo.read_sql_query
                    Demo.farm_engine Demo.no_rows_query [])) =
    [(ERROR, "The query returned an empty DataFrame.");
     (ERROR, "SQL query failed. Error: The query returned an empty DataFrame.")]
  /\
  (Edge.read_csv Edge.slow_url = Raised Edge.interrupt /\
   read_from_web_CSV Edge.read_csv Edge.slow_url [] =
     (Raised Edge.interrupt, [ReadCsv Edge.slow_url]) /\
   log_lines (snd (read_from_web_CSV Edge.read_csv Edge.slow_url [])) = []).
Proof. repeat split; reflexivity. Qed.

(** Against C5 as stated.  The URL is that of an HTML page, served as
    text/html.  The reader makes a table of its lines, one column named
    after the first line, and [read_from_web_CSV] returns that table and
    logs a success: the content is not rejected, and the line that asks to
    check the URL is not written. *)
Lemma read_from_web_CSV_accepts_html_page :
  Demo.content_type Demo.page_url = Some "text/html" /\
  Demo.body Demo.page_url = Some Demo.page_text /\
  read_from_web_CSV Demo.read_csv Demo.page_url [] =
    (Returned (mkDataFrame ["<html>"]
                 [[CText "<body>hello</body>"]; [CText "</html>"]]),
     [ReadCsv Demo.page_url;
      Log INFO "CSV file read successfully from the web."]).
Proof. repeat split; reflexivity. Qed.


(** ** Errors are raised again as they came

    Apart from the ImportError clause of [create_db_engine], every clause
    ends by raising the exception it caught, and an exception no clause
    matches passes through. *)

Section Propagation.

Variable create_engine : string -> Result Engine.
Variable connect : Engine -> Result Connection.
Variable read_sql_query : string -> Connection -> Result DataFrame.
Variable read_csv : string -> Result DataFrame.

Lemma create_db_engine_propagates (db_path : string) (t : Trace) (e : exn) :
  creation_failure create_engine connect db_path = Some e ->
  isinstance e ImportError = false ->
  fst (create_db_engine create_engine connect db_path t) = Raised e.
Proof.
  unfold creation_failure. py_unfold. intros Hf Hi.
  destruct (create_engine db_path) as [eng|e0].
  - destruct (connect eng) as [c|e1]; [discriminate|].
    injection Hf as ->. rewrite Hi.
    destruct (isinstance e Exception); reflexivity.
  - injection Hf as ->. rewrite Hi.
    destruct (isinstance e Exception); reflexivity.
Qed.

(** X7. Whatever opening the connection or running the query raises, of
    any class, is what [query_data] raises: the same exception, not a
    wrapper around it and not a value in its place. *)
Lemma query_data_propagates (eng : Engine) (sql : string) (t : Trace)
    (e : exn) :
  execution_failure connect read_sql_query eng sql = Some e ->
  fst (query_data connect read_sql_query eng sql t) = Raised e.
Proof.
  unfold execution_failure. py_unfold. intros Hf.
  destruct (connect eng) as [c|e0].
  - destruct (read_sql_query sql c) as [df|e1]; [discriminate|].
    injection Hf as ->.
    destruct (isinstance e ValueError), (isinstance e Exception); reflexivity.
  - injection Hf as ->.
    destruct (isinstance e ValueError), (isinstance e Exception); reflexivity.
Qed.

(** X8. Whatever the reader raises, of any class, is what
    [read_from_web_CSV] raises: the same exception, not a wrapper around it
    and not a value in its place. *)
Lemma read_from_web_CSV_propagates (URL : string) (t : Trace) (e : exn) :
  read_csv URL = Raised e ->
  fst (read_from_web_CSV read_csv URL t) = Raised e.
Proof.
  py_unfold. intros ->.
  destruct (isinstance e EmptyDataError), (isinstance e Exception);
    reflexivity.
Qed.

End Propagation.

(** ** The statements at work in the small world *)

Lemma query_data_zero_rows_raises_witness :
  fst (query_data Demo.connect Demo.read_sql_query
         Demo.farm_engine Demo.no_rows_query []) =
    Raised (Exn ValueError "The query returned an empty DataFrame." None) /\
  1 <= nrows Demo.fields_table.
Proof.
  split.
  - apply (proj1 (query_data_zero_rows_raises Demo.connect Demo.read_sql_query
                    Demo.farm_engine Demo.no_rows_query [])
             Demo.farm_conn (mkDataFrame ["Field_ID"; "Elevation"] []));
      reflexivity.
  - apply (proj2 (query_data_zero_rows_raises Demo.connect Demo.read_sql_query
                    Demo.farm_engine Demo.fields_query [])
             Demo.fields_table).
    reflexivity.
Defined.

Lemma query_data_execution_errors_witness :
  fst (query_data Demo.connect Demo.read_sql_query
         Demo.farm_engine Demo.typo_query []) =
    Raised (Exn OperationalError
              "(sqlite3.OperationalError) near 'SELEC': syntax error" None) /\
  log_lines (snd (query_data Demo.connect Demo.read_sql_query
                    Demo.farm_engine Demo.typo_query [])) =
    [(ERROR,
      "An error occurred while querying the database. Error: (sqlite3.OperationalError) near 'SELEC': syntax error")].
Proof.
  apply (query_data_execution_errors Demo.connect Demo.read_sql_query
           Demo.farm_engine Demo.typo_query []
           (Exn OperationalError
              "(sqlite3.OperationalError) near 'SELEC': syntax error" None));
    reflexivity.
Defined.

Lemma read_from_web_CSV_errors_witness :
  read_from_web_CSV Demo.read_csv Demo.empty_url [] =
    (Raised (Exn EmptyDataError "No columns to parse from file" None),
     [ReadCsv Demo.empty_url;
      Log ERROR
        "The URL does not point to a valid CSV file. Please check the URL and try again."])
  /\
  read_from_web_CSV Demo.read_csv "https://example.com/missing.csv" [] =
    (Raised (Exn HTTPError "HTTP Error 404: Not Found" None),
     [ReadCsv "https://example.com/missing.csv";
      Log ERROR
        "Failed to read CSV from the web. Error: HTTP Error 404: Not Found"])
  /\
  (exists e,
     Demo.read_csv Demo.empty_url = Raised e /\
     isinstance e EmptyDataError = true).
Proof.
  split; [|split].
  - apply (proj1 (read_from_web_CSV_errors Demo.read_csv Demo.empty_url [])
             (Exn EmptyDataError "No columns to parse from file" None));
      reflexivity.
  - apply (proj1 (read_from_web_CSV_errors Demo.read_csv
                    "https://example.com/missing.csv" [])
             (Exn HTTPError "HTTP Error 404: Not Found" None));
      reflexivity.
  - apply (proj1 (proj2 (read_from_web_CSV_errors Demo.read_csv
                           Demo.empty_url []))).
    right. left. reflexivity.
Defined.

Lemma create_db_engine_probes_then_returns_witness :
  create_db_engine Demo.create_engine Demo.connect Demo.farm_db [] =
    (Returned Demo.farm_engine,
     [CreateEngine Demo.farm_db; Connect Demo.farm_engine;
      Opened Demo.farm_conn; Closed Demo.farm_conn;
      Log INFO "Database engine created successfully."])
  /\
  (fst (create_db_engine Demo.create_engine Demo.connect
          "sqlite:///no/such/dir/farm.db" []) =
     Raised (Exn OperationalError
               "(sqlite3.OperationalError) unable to open database file" None)
   /\
   log_lines (snd (create_db_engine Demo.create_engine Demo.connect
                     "sqlite:///no/such/dir/farm.db" [])) =
     [(ERROR,
       "Failed to create database engine. Error: (sqlite3.OperationalError) unable to open database file")]).
Proof.
  split.
  - apply (proj1 (create_db_engine_probes_then_returns
                    Demo.create_engine Demo.connect Demo.farm_db []));
      reflexivity.
  - apply (proj2 (proj2 (create_db_engine_probes_then_returns
                           Demo.create_engine Demo.connect
                           "sqlite:///no/such/dir/farm.db" []))
             (Exn OperationalError
                "(sqlite3.OperationalError) unable to open database file" None));
      reflexivity.
Defined.

Lemma query_data_releases_connection_witness :
  query_data Demo.connect Demo.read_sql_query
      Demo.farm_engine Demo.no_rows_query [] =
    (Raised (Exn ValueError "The query returned an empty DataFrame." None),
     [Connect Demo.farm_engine; Opened Demo.farm_conn;
      ReadSqlQuery Demo.no_rows_query Demo.farm_conn; Closed Demo.farm_conn;
      Log ERROR "The query returned an empty DataFrame.";
      Log ERROR
        "SQL query failed. Error: The query returned an empty DataFrame."])
  /\
  open_connections
    (snd (query_data Demo.connect Demo.read_sql_query
            Demo.farm_engine Demo.typo_query [])) [] = [].
Proof.
  split.
  - apply (proj2 (proj2 (query_data_releases_connection
                           Demo.connect Demo.read_sql_query
                           Demo.farm_engine Demo.no_rows_query []))
             Demo.farm_conn (mkDataFrame ["Field_ID"; "Elevation"] []));
      reflexivity.
  - apply (proj1 (proj2 (query_data_releases_connection
                           Demo.connect Demo.read_sql_query
                           Demo.farm_engine Demo.typo_query []))).
Defined.

Lemma create_db_engine_replaces_ImportError_witness :
  exists e',
    fst (create_db_engine Demo.create_engine Demo.connect
           "postgresql://user@host/farm" []) = Raised e' /\
    e' <> Exn ModuleNotFoundError "No module named 'psycopg2'" None /\
    exc_class e' = UnboundLocalError /\
    exc_context e' =
      Some (Exn ModuleNotFoundError "No module named 'psycopg2'" None).
Proof.
  apply (create_db_engine_replaces_ImportError Demo.create_engine Demo.connect
           "postgresql://user@host/farm" []
           (Exn ModuleNotFoundError "No module named 'psycopg2'" None));
    reflexivity.
Defined.

Lemma read_from_web_CSV_any_source_witness :
  read_from_web_CSV Demo.read_csv Demo.local_path [] =
    (Returned (mkDataFrame ["Weather_station_ID"; "Message"]
                 [[CInt 22; CText "rain"]]),
     [ReadCsv Demo.local_path;
      Log INFO "CSV file read successfully from the web."])
  /\ String.prefix "http" Demo.local_path = false.
Proof.
  split; [|reflexivity].
  apply (proj1 (read_from_web_CSV_any_source Demo.read_csv Demo.local_path []));
    reflexivity.
Defined.


(** * Further properties of the three functions *)

(** An exception that is no Exception is matched by none of the classes
    the [except] clauses name. *)
Lemma not_Exception_unmatched (e : exn) :
  isinstance e Exception = false ->
  isinstance e ImportError = false /\
  isinstance e ValueError = false /\
  isinstance e EmptyDataError = false.
Proof.
  destruct e as [c m x]; destruct c; cbv; intros H;
    repeat split; congruence.
Qed.

Section FacadeEdges.

Variable create_engine : string -> Result Engine.
Variable connect : Engine -> Result Connection.
Variable read_sql_query : string -> Connection -> Result DataFrame.
Variable read_csv : string -> Result DataFrame.

Local Abbreviation create_db_engine := (create_db_engine create_engine connect).
Local Abbreviation query_data := (query_data connect read_sql_query).
Local Abbreviation read_from_web_CSV := (read_from_web_CSV read_csv).
Local Abbreviation creation_failure := (creation_failure create_engine connect).
Local Abbreviation execution_failure := (execution_failure connect read_sql_query).

(** X1. Whatever [create_db_engine] meets, the trace of the call is the
    library calls followed by log lines only: the probe connection, when
    one was opened, is closed before the first line is logged, a probe
    that could not be opened leaves nothing to close, and no call leaves a
    connection open. *)
Theorem create_db_engine_closes_probe (db_path : string) (t : Trace) :
  (exists logs, forallb is_log logs = true /\
     snd (create_db_engine db_path t) =
       (t ++ match create_engine db_path with
             | Raised _ => [CreateEngine db_path]
             | Returned eng =>
                 match connect eng with
                 | Returned c =>
                     [CreateEngine db_path; Connect eng; Opened c; Closed c]
                 | Raised _ => [CreateEngine db_path; Connect eng]
                 end
             end ++ logs)%list)
  /\ open_connections (snd (create_db_engine db_path [])) [] = [].
Proof.
  assert (Hshape : forall u, exists logs, forallb is_log logs = true /\
     snd (create_db_engine db_path u) =
       (u ++ match create_engine db_path with
             | Raised _ => [CreateEngine db_path]
             | Returned eng =>
                 match connect eng with
                 | Returned c =>
                     [CreateEngine db_path; Connect eng; Opened c; Closed c]
                 | Raised _ => [CreateEngine db_path; Connect eng]
                 end
             end ++ logs)%list).
  { intros u. py_unfold.
    destruct (create_engine db_path) as [eng|e0].
    - destruct (connect eng) as [c|e1].
      + py_trace. eexists; (split; [|reflexivity]); reflexivity.
      + destruct (isinstance e1 ImportError), (isinstance e1 Exception);
          py_trace; eexists; (split; [|reflexivity]); reflexivity.
    - destruct (isinstance e0 ImportError), (isinstance e0 Exception);
        py_trace; eexists; (split; [|reflexivity]); reflexivity. }
  split; [apply Hshape|].
  destruct (Hshape []) as (logs & Hlogs & ->).
  destruct (create_engine db_path) as [eng|e0].
  - destruct (connect eng) as [c|e1].
    + cbn [app open_connections filter]. rewrite Connection_eqb_refl.
      cbn [negb]. apply open_connections_logs, Hlogs.
    + cbn [app open_connections]. apply open_connections_logs, Hlogs.
  - cbn [app open_connections]. apply open_connections_logs, Hlogs.
Qed.

(** X2. [query_data] returns a table exactly when a connection could be
    opened, the query ran to completion and its table is not empty; the
    table returned is the one the query gave, as it is. *)
Theorem query_data_returns_iff (eng : Engine) (sql : string) (t : Trace)
    (df : DataFrame) :
  fst (query_data eng sql t) = Returned df <->
  exists c, connect eng = Returned c /\
    read_sql_query sql c = Returned df /\
    empty df = false.
Proof.
  split.
  - intros Hr.
    destruct (query_data_returned connect read_sql_query eng sql t df Hr)
      as (c & Hc & Hq & He & _).
    exists c. auto.
  - intros (c & Hc & Hq & He).
    rewrite (query_data_ok connect read_sql_query eng sql t c df Hc Hq He).
    reflexivity.
Qed.

(** X3. The empty check of [query_data] is [df.empty], which also holds of
    a table with rows and no columns: such a result is refused with the
    same ValueError, and a table that is returned has at least one column
    and at least one row. *)
Theorem query_data_needs_rows_and_columns (eng : Engine) (sql : string)
    (t : Trace) :
  (forall c df,
     connect eng = Returned c ->
     read_sql_query sql c = Returned df ->
     ncols df = 0 ->
     fst (query_data eng sql t) =
       Raised (Exn ValueError "The query returned an empty DataFrame." None))
  /\
  (forall df,
     fst (query_data eng sql t) = Returned df ->
     1 <= ncols df /\ 1 <= nrows df).
Proof.
  split.
  - intros c df Hc Hq Hn.
    rewrite (query_data_empty connect read_sql_query eng sql t c df Hc Hq);
      [reflexivity|].
    unfold empty. rewrite Hn. apply orb_true_r.
  - intros df Hr.
    destruct (query_data_returned connect read_sql_query eng sql t df Hr)
      as (c & _ & _ & He & _).
    unfold empty in He. apply orb_false_elim in He as [Hn Hc].
    apply Nat.eqb_neq in Hn. apply Nat.eqb_neq in Hc. lia.
Qed.

(** X4. An exception that is not an Exception, such as KeyboardInterrupt
    or SystemExit, raised by a library call matches no clause of any of the
    three functions: it reaches the caller as it is and nothing is
    logged. *)
Theorem interrupts_pass_unlogged (e : exn) :
  isinstance e Exception = false ->
  (forall db_path t,
     creation_failure db_path = Some e ->
     fst (create_db_engine db_path t) = Raised e /\
     log_lines (snd (create_db_engine db_path t)) = log_lines t)
  /\
  (forall eng sql t,
     execution_failure eng sql = Some e ->
     fst (query_data eng sql t) = Raised e /\
     log_lines (snd (query_data eng sql t)) = log_lines t)
  /\
  (forall URL t,
     read_csv URL = Raised e ->
     fst (read_from_web_CSV URL t) = Raised e /\
     log_lines (snd (read_from_web_CSV URL t)) = log_lines t).
Proof.
  intros He.
  destruct (not_Exception_unmatched e He) as (Hi & Hv & Hd).
  split; [|split].
  - intros db_path t. py_outcome. py_unfold. intros Hf.
    destruct (create_engine db_path) as [eng|e0].
    + destruct (connect eng) as [c|e1]; [discriminate|].
      injection Hf as ->. rewrite Hi, He. py_trace.
      rewrite app_nil_r. split; reflexivity.
    + injection Hf as ->. rewrite Hi, He. py_trace.
      rewrite app_nil_r. split; reflexivity.
  - intros eng sql t. py_outcome. py_unfold. intros Hf.
    destruct (connect eng) as [c|e0].
    + destruct (read_sql_query sql c) as [df|e1]; [discriminate|].
      injection Hf as ->. rewrite Hv, He. py_trace.
      rewrite app_nil_r. split; reflexivity.
    + injection Hf as ->. rewrite Hv, He. py_trace.
      rewrite app_nil_r. split; reflexivity.
  - intros URL t Hr. py_unfold. rewrite Hr, Hd, He. py_trace.
    rewrite app_nil_r. split; reflexivity.
Qed.

(** X5. No call tries a library call a second time:
    [create_db_engine] constructs once and connects at most once,
    [query_data] connects once and runs the query at most once,
    [read_from_web_CSV] reads once, whether the call returns or raises. *)
Theorem library_called_at_most_once :
  (forall db_path,
     count_events is_create_engine (snd (create_db_engine db_path [])) = 1 /\
     count_events is_connect (snd (create_db_engine db_path [])) <= 1)
  /\
  (forall eng sql,
     count_events is_connect (snd (query_data eng sql [])) = 1 /\
     count_events is_read_sql_query (snd (query_data eng sql [])) <= 1)
  /\
  (forall URL,
     count_events is_read_csv (snd (read_from_web_CSV URL [])) = 1).
Proof.
  split; [|split].
  - intros db_path. py_unfold.
    destruct (create_engine db_path) as [eng|e0].
    + destruct (connect eng) as [c|e1].
      * cbn. split; [reflexivity | lia].
      * destruct (isinstance e1 ImportError), (isinstance e1 Exception);
          cbn; split; (reflexivity || lia).
    + destruct (isinstance e0 ImportError), (isinstance e0 Exception);
        cbn; split; (reflexivity || lia).
  - intros eng sql. py_unfold.
    destruct (connect eng) as [c|e0].
    + destruct (read_sql_query sql c) as [df|e1].
      * destruct (empty df); cbn; split; (reflexivity || lia).
      * destruct (isinstance e1 ValueError), (isinstance e1 Exception);
          cbn; split; (reflexivity || lia).
    + destruct (isinstance e0 ValueError), (isinstance e0 Exception);
        cbn; split; (reflexivity || lia).
  - intros URL. py_unfold.
    destruct (read_csv URL) as [df|e0].
    + reflexivity.
    + destruct (isinstance e0 EmptyDataError), (isinstance e0 Exception);
        reflexivity.
Qed.

(** X6. [create_db_engine] has no fallback: when construction or the probe
    raises anything at all, the call raises, and what construction or the
    probe raised reaches the caller either as the exception raised or, on
    the ImportError clause, as the context of the exception raised. *)
Theorem create_db_engine_cause_preserved (db_path : string) (t : Trace)
    (e : exn) :
  creation_failure db_path = Some e ->
  exists e',
    fst (create_db_engine db_path t) = Raised e' /\
    (e' = e \/ exc_context e' = Some e).
Proof.
  intros Hf. destruct (isinstance e ImportError) eqn:Hi.
  - destruct (create_db_engine_ImportError create_engine connect
                db_path t e Hf Hi) as [Hr _].
    eexists. split; [exact Hr|]. right. reflexivity.
  - exists e. split; [|left; reflexivity].
    apply create_db_engine_propagates; assumption.
Qed.

(** X9. [read_from_web_CSV] has no empty check: a table without rows, as a
    document with a header and no records gives, is returned and logged as
    a success, where [query_data] refuses the same table with its
    ValueError. *)
Theorem empty_table_returned_by_read_from_web_CSV (URL : string)
    (eng : Engine) (sql : string) (c : Connection) (df : DataFrame)
    (t : Trace) :
  empty df = true ->
  read_csv URL = Returned df ->
  connect eng = Returned c ->
  read_sql_query sql c = Returned df ->
  read_from_web_CSV URL t =
    (Returned df,
     (t ++ [ReadCsv URL;
            Log INFO "CSV file read successfully from the web."])%list)
  /\
  fst (query_data eng sql t) =
    Raised (Exn ValueError "The query returned an empty DataFrame." None).
Proof.
  intros He Hr Hc Hq. split.
  - apply read_from_web_CSV_ok, Hr.
  - rewrite (query_data_empty connect read_sql_query eng sql t c df Hc Hq He).
    reflexivity.
Qed.

End FacadeEdges.

Ltac py_usage :=
  unfold engine_then_query;
  cbv beta iota zeta delta [bind Monad_PyM py_bind].

Section UsageProperties.

Variable create_engine : string -> Result Engine.
Variable read_sql_query : string -> Connection -> Result DataFrame.
Variable connect_probe : Engine -> Result Connection.
Variable connect_query : Engine -> Result Connection.

Local Abbreviation engine_then_query :=
  (engine_then_query create_engine read_sql_query connect_probe connect_query).

(** X10. [create_db_engine] followed by [query_data] on the engine it
    returned.  When the pair returns a table, the probe connection was
    closed before the query connection was opened, each call logged its
    one INFO line and nothing else was logged.  When [create_db_engine]
    raises, the pair raises the same exception and does nothing more: no
    connection is asked for and no query is run. *)
Theorem engine_then_query_runs (db_path sql : string) (t : Trace) :
  (forall df,
     fst (engine_then_query db_path sql t) = Returned df ->
     exists eng c1 c2,
       create_engine db_path = Returned eng /\
       connect_probe eng = Returned c1 /\
       connect_query eng = Returned c2 /\
       read_sql_query sql c2 = Returned df /\
       snd (engine_then_query db_path sql t) =
         (t ++ [CreateEngine db_path;
                Connect eng; Opened c1; Closed c1;
                Log INFO "Database engine created successfully.";
                Connect eng; Opened c2; ReadSqlQuery sql c2; Closed c2;
                Log INFO "Query executed successfully."])%list)
  /\
  (forall e,
     fst (create_db_engine create_engine connect_probe db_path t) = Raised e ->
     fst (engine_then_query db_path sql t) = Raised e /\
     snd (engine_then_query db_path sql t) =
       snd (create_db_engine create_engine connect_probe db_path t)).
Proof.
  py_usage.
  destruct (create_db_engine create_engine connect_probe db_path t)
    as [[eng|e0] t1] eqn:Hrun.
  - split; [|cbn [fst]; discriminate].
    intros df Hq.
    pose proof (create_db_engine_returned create_engine connect_probe
                  db_path t eng) as H1.
    rewrite Hrun in H1. cbn [fst snd] in H1.
    destruct (H1 eq_refl) as (Hce & c1 & Hc1 & Ht1).
    destruct (query_data_returned connect_query read_sql_query
                eng sql t1 df Hq) as (c2 & Hc2 & Hrq & _ & Ht2).
    exists eng, c1, c2. repeat (split; [assumption|]).
    rewrite Ht2, Ht1, <- app_assoc. reflexivity.
  - split; [cbn [fst]; discriminate|].
    intros e [= ->]. split; reflexivity.
Qed.

End UsageProperties.

(** ** The further statements at work on the edge cases *)

Lemma query_data_returns_iff_witness :
  fst (query_data Demo.connect Demo.read_sql_query
         Demo.farm_engine Demo.fields_query []) = Returned Demo.fields_table.
Proof.
  apply (proj2 (query_data_returns_iff Demo.connect Demo.read_sql_query
                  Demo.farm_engine Demo.fields_query [] Demo.fields_table)).
  exists Demo.farm_conn. repeat split; reflexivity.
Defined.

Lemma query_data_needs_rows_and_columns_witness :
  nrows Edge.no_columns_table = 2 /\
  fst (query_data Edge.connect Edge.read_sql_query
         (mkEngine "sqlite:///a.db") Edge.no_columns_query []) =
    Raised (Exn ValueError "The query returned an empty DataFrame." None) /\
  (1 <= ncols Demo.fields_table /\ 1 <= nrows Demo.fields_table).
Proof.
  split; [reflexivity|]. split.
  - apply (proj1 (query_data_needs_rows_and_columns
                    Edge.connect Edge.read_sql_query
                    (mkEngine "sqlite:///a.db") Edge.no_columns_query [])
             (mkConnection (mkEngine "sqlite:///a.db") 7)
             Edge.no_columns_table);
      reflexivity.
  - apply (proj2 (query_data_needs_rows_and_columns
                    Demo.connect Demo.read_sql_query
                    Demo.farm_engine Demo.fields_query [])
             Demo.fields_table).
    reflexivity.
Defined.

Lemma interrupts_pass_unlogged_witness :
  (fst (create_db_engine Edge.create_engine Edge.connect
          "sqlite:///busy.db" []) = Raised Edge.interrupt /\
   log_lines (snd (create_db_engine Edge.create_engine Edge.connect
                     "sqlite:///busy.db" [])) = [])
  /\
  (fst (query_data Edge.connect Edge.read_sql_query
          (mkEngine "sqlite:///a.db") "SELECT pg_sleep(3600)" []) =
     Raised Edge.interrupt /\
   log_lines (snd (query_data Edge.connect Edge.read_sql_query
                     (mkEngine "sqlite:///a.db") "SELECT pg_sleep(3600)" [])) =
     [])
  /\
  (fst (read_from_web_CSV Edge.read_csv Edge.slow_url []) =
     Raised Edge.interrupt /\
   log_lines (snd (read_from_web_CSV Edge.read_csv Edge.slow_url [])) = []).
Proof.
  destruct (interrupts_pass_unlogged Edge.create_engine Edge.connect
              Edge.read_sql_query Edge.read_csv Edge.interrupt eq_refl)
    as (Hc & Hq & Hr).
  split; [|split].
  - apply (Hc "sqlite:///busy.db" []). reflexivity.
  - apply (Hq (mkEngine "sqlite:///a.db") "SELECT pg_sleep(3600)" []).
    reflexivity.
  - apply (Hr Edge.slow_url []). reflexivity.
Defined.

Lemma create_db_engine_cause_preserved_witness :
  exists e',
    fst (create_db_engine Demo.create_engine Demo.connect
           "postgresql://user@host/farm" []) = Raised e' /\
    (e' = Exn ModuleNotFoundError "No module named 'psycopg2'" None \/
     exc_context e' =
       Some (Exn ModuleNotFoundError "No module named 'psycopg2'" None)).
Proof.
  apply (create_db_engine_cause_preserved Demo.create_engine Demo.connect
           "postgresql://user@host/farm" []
           (Exn ModuleNotFoundError "No module named 'psycopg2'" None)).
  reflexivity.
Defined.

Lemma query_data_propagates_witness :
  fst (query_data Edge.connect_gone Demo.read_sql_query
         Demo.farm_engine Demo.fields_query []) =
    Raised (Exn OperationalError
              "(sqlite3.OperationalError) unable to open database file" None)
  /\
  fst (query_data Demo.connect Demo.read_sql_query
         Demo.farm_engine Demo.surrogate_query []) =
    Raised (Exn UnicodeEncodeError
              "'utf-8' codec can't encode character '\ud800' in position 8: surrogates not allowed"
              None).
Proof.
  split.
  - apply (query_data_propagates Edge.connect_gone Demo.read_sql_query
             Demo.farm_engine Demo.fields_query []).
    reflexivity.
  - apply (query_data_propagates Demo.connect Demo.read_sql_query
             Demo.farm_engine Demo.surrogate_query []).
    reflexivity.
Defined.

Lemma read_from_web_CSV_propagates_witness :
  fst (read_from_web_CSV Demo.read_csv "https://example.com/missing.csv" []) =
    Raised (Exn HTTPError "HTTP Error 404: Not Found" None)
  /\
  fst (read_from_web_CSV Demo.read_csv Demo.empty_url []) =
    Raised (Exn EmptyDataError "No columns to parse from file" None).
Proof.
  split.
  - apply (read_from_web_CSV_propagates Demo.read_csv
             "https://example.com/missing.csv" []).
    reflexivity.
  - apply (read_from_web_CSV_propagates Demo.read_csv Demo.empty_url []).
    reflexivity.
Defined.

Lemma empty_table_returned_by_read_from_web_CSV_witness :
  read_from_web_CSV Edge.read_csv Edge.header_only_url [] =
    (Returned Edge.header_only_table,
     [ReadCsv Edge.header_only_url;
      Log INFO "CSV file read successfully from the web."])
  /\
  fst (query_data Edge.connect Edge.read_sql_query
         (mkEngine "sqlite:///a.db") "SELECT a, b FROM t WHERE 1=0" []) =
    Raised (Exn ValueError "The query returned an empty DataFrame." None).
Proof.
  apply (empty_table_returned_by_read_from_web_CSV
           Edge.connect Edge.read_sql_query Edge.read_csv
           Edge.header_only_url (mkEngine "sqlite:///a.db")
           "SELECT a, b FROM t WHERE 1=0"
           (mkConnection (mkEngine "sqlite:///a.db") 7)
           Edge.header_only_table []);
    reflexivity.
Defined.

Lemma engine_then_query_runs_witness :
  (exists eng c1 c2,
     Demo.create_engine Demo.farm_db = Returned eng /\
     Demo.connect eng = Returned c1 /\
     Demo.connect eng = Returned c2 /\
     Demo.read_sql_query Demo.fields_query c2 = Returned Demo.fields_table /\
     snd (engine_then_query Demo.create_engine Demo.read_sql_query
            Demo.connect Demo.connect Demo.farm_db Demo.fields_query []) =
       [CreateEngine Demo.farm_db;
        Connect eng; Opened c1; Closed c1;
        Log INFO "Database engine created successfully.";
        Connect eng; Opened c2; ReadSqlQuery Demo.fields_query c2; Closed c2;
        Log INFO "Query executed successfully."])
  /\
  (fst (engine_then_query Edge.create_engine Demo.read_sql_query
          Edge.connect Edge.connect "sqlite:///busy.db" Demo.fields_query []) =
     Raised Edge.interrupt /\
   snd (engine_then_query Edge.create_engine Demo.read_sql_query
          Edge.connect Edge.connect "sqlite:///busy.db" Demo.fields_query []) =
     [CreateEngine "sqlite:///busy.db";
      Connect (mkEngine "sqlite:///busy.db")]).
Proof.
  split.
  - apply (proj1 (engine_then_query_runs Demo.create_engine
                    Demo.read_sql_query Demo.connect Demo.connect
                    Demo.farm_db Demo.fields_query [])
             Demo.fields_table).
    reflexivity.
  - apply (proj2 (engine_then_query_runs Edge.create_engine
                    Demo.read_sql_query Edge.connect Edge.connect
                    "sqlite:///busy.db" Demo.fields_query [])
             Edge.interrupt).
    reflexivity.
Defined.

(** * The log of a call, and the table of a read, in full *)

Section FacadeOutcomes.

Variable create_engine : string -> Result Engine.
Variable connect : Engine -> Result Connection.
Variable read_sql_query : string -> Connection -> Result DataFrame.
Variable read_csv : string -> Result DataFrame.

Local Abbreviation create_db_engine := (create_db_engine create_engine connect).
Local Abbreviation query_data := (query_data connect read_sql_query).
Local Abbreviation read_from_web_CSV := (read_from_web_CSV read_csv).
Local Abbreviation yields_empty := (yields_empty connect read_sql_query).

(** Closes a goal on the levels of the lines a path has written. *)
Ltac py_levels :=
  py_trace; rewrite ?map_app; cbn [map fst app expected_levels];
  rewrite ?app_nil_r; try reflexivity.

(** C4, as amended.  The lines a call writes are fixed by how it ends, for
    each of the three functions and every way a library call can end.  A
    call that returns writes one INFO line.  A call that raises an error
    (an instance of Exception) writes one ERROR line, except that
    [query_data] on a query that yields an empty table writes two, the one
    before its [raise] and the one of the clause that catches it.  A call
    that raises what is no Exception (KeyboardInterrupt, SystemExit)
    writes nothing. *)
Theorem log_levels_by_outcome :
  (forall db_path t,
     map fst (log_lines (snd (create_db_engine db_path t))) =
       (map fst (log_lines t)
          ++ expected_levels false (fst (create_db_engine db_path t)))%list)
  /\
  (forall eng sql t,
     map fst (log_lines (snd (query_data eng sql t))) =
       (map fst (log_lines t)
          ++ expected_levels (yields_empty eng sql)
               (fst (query_data eng sql t)))%list)
  /\
  (forall URL t,
     map fst (log_lines (snd (read_from_web_CSV URL t))) =
       (map fst (log_lines t)
          ++ expected_levels false (fst (read_from_web_CSV URL t)))%list)
  /\
  (forall eng sql,
     yields_empty eng sql = true ->
     log_lines (snd (query_data eng sql [])) =
       [(ERROR, "The query returned an empty DataFrame.");
        (ERROR, "SQL query failed. Error: The query returned an empty DataFrame.")]).
Proof.
  split; [|split; [|split]].
  - intros db_path t. py_unfold.
    destruct (create_engine db_path) as [eng|e0].
    + destruct (connect eng) as [c|e1]; [py_levels|].
      destruct (isinstance e1 ImportError) eqn:Hi; [py_levels|].
      destruct (isinstance e1 Exception) eqn:He; py_levels;
        rewrite He, ?app_nil_r; reflexivity.
    + destruct (isinstance e0 ImportError) eqn:Hi; [py_levels|].
      destruct (isinstance e0 Exception) eqn:He; py_levels;
        rewrite He, ?app_nil_r; reflexivity.
  - intros eng sql t. py_outcome. py_unfold.
    destruct (connect eng) as [c|e0].
    + destruct (read_sql_query sql c) as [df|e1].
      * destruct (empty df);
          [change (isinstance (Exn ValueError _ None) ValueError) with true|];
          py_levels.
      * destruct (isinstance e1 Exception) eqn:He.
        -- destruct (isinstance e1 ValueError); py_levels;
             rewrite He, ?app_nil_r; reflexivity.
        -- destruct (not_Exception_unmatched e1 He) as (_ & Hv & _).
           rewrite Hv. py_levels. rewrite He, ?app_nil_r. reflexivity.
    + destruct (isinstance e0 Exception) eqn:He.
      * destruct (isinstance e0 ValueError); py_levels;
          rewrite He, ?app_nil_r; reflexivity.
      * destruct (not_Exception_unmatched e0 He) as (_ & Hv & _).
        rewrite Hv. py_levels. rewrite He, ?app_nil_r. reflexivity.
  - intros URL t. py_unfold.
    destruct (read_csv URL) as [df|e0]; [py_levels|].
    destruct (isinstance e0 Exception) eqn:He.
    + destruct (isinstance e0 EmptyDataError); py_levels;
        rewrite He, ?app_nil_r; reflexivity.
    + destruct (not_Exception_unmatched e0 He) as (_ & _ & Hd).
      rewrite Hd. py_levels. rewrite He, ?app_nil_r. reflexivity.
  - intros eng sql. apply query_data_logged_twice.
Qed.


End FacadeOutcomes.

Lemma log_levels_by_outcome_witness :
  map fst (log_lines (snd (create_db_engine Demo.create_engine Demo.connect
                             Demo.farm_db []))) = [INFO]
  /\
  map fst (log_lines (snd (query_data Demo.connect Demo.read_sql_query
                             Demo.farm_engine Demo.typo_query []))) = [ERROR]
  /\
  map fst (log_lines (snd (read_from_web_CSV Edge.read_csv
                             Edge.slow_url []))) = []
  /\
  log_lines (snd (query_data Demo.connect Demo.read_sql_query
                    Demo.farm_engine Demo.no_rows_query [])) =
    [(ERROR, "The query returned an empty DataFrame.");
     (ERROR, "SQL query failed. Error: The query returned an empty DataFrame.")].
Proof.
  split; [|split; [|split]].
  - exact (proj1 (log_levels_by_outcome Demo.create_engine Demo.connect
                    Demo.read_sql_query Demo.read_csv) Demo.farm_db []).
  - exact (proj1 (proj2 (log_levels_by_outcome Demo.create_engine
                           Demo.connect Demo.read_sql_query Demo.read_csv))
             Demo.farm_engine Demo.typo_query []).
  - exact (proj1 (proj2 (proj2 (log_levels_by_outcome Demo.create_engine
                                  Demo.connect Demo.read_sql_query
                                  Edge.read_csv)))
             Edge.slow_url []).
  - apply (proj2 (proj2 (proj2 (log_levels_by_outcome Demo.create_engine
                                  Demo.connect Demo.read_sql_query
                                  Demo.read_csv)))
             Demo.farm_engine Demo.no_rows_query).
    reflexivity.
Defined.

